(** * skiff-dispatcher-smtp: a shallow embedding of [lib/index.js]

    The module routes SMTP work inside a gossip cluster.  Every exported
    function is callback driven; here each one becomes a computation in a
    small state/exception monad over a [World] (the node, the module level
    caches and a trace of the calls that leave the module).  Closures that
    the module hands to its collaborators are first-order data ([Cont]), so
    that a later event can resume them with [call]. *)

From Stdlib Require Import ZArith String List.
From stdpp Require Import base strings gmap list.

Local Open Scope string_scope.
Local Open Scope list_scope.

(** ** JavaScript values *)

(** [connection] in [establishSMTPConnection] is either the transport that
    was just created or the wrapper object [{it, cluster, key}] read back
    from the cache.  A wrapper is created together with exactly one
    transport, so it is identified by the address of its [it]. *)
Inductive Ref :=
| RTransport (addr : nat)
| RWrapper (addr : nat).

#[warnings="-register-all"]
Inductive Val :=
| VUndef
| VNull
| VBool (b : bool)
| VStr (s : string)
| VObj (fields : list (string * Val))
| VErr (message : string)
| VRef (r : Ref)
| VFun (k : Cont)
with Cont :=
| KCaller (tag : nat)
| KQueued (key : string)
| KConnectionCallback (operationKey : string) (callback : Val)
| KReceivedCredentials (connection : Val) (callback : Val)
| KGetSMTPConnectionNodeId (username : string) (options : Val) (next : Val)
| KSendPreparedEmail (connection : Val) (next : Val)
| KRegenerateOAuthToken (username : string) (callback : Val).

(** ToBoolean. *)
Definition truthy (v : Val) : bool :=
  match v with
  | VUndef | VNull => false
  | VBool b => b
  | VStr s => negb (String.eqb s "")
  | VObj _ | VErr _ | VRef _ | VFun _ => true
  end.

(** [v === s] for a string [s]. *)
Definition strict_eq_str (v : Val) (s : string) : bool :=
  match v with
  | VStr s' => String.eqb s' s
  | _ => false
  end.

Fixpoint obj_get (fields : list (string * Val)) (name : string) : option Val :=
  match fields with
  | [] => None
  | (n, v) :: rest => if String.eqb n name then Some v else obj_get rest name
  end.

(** lodash [_.pick(object, names)]: the named properties that exist. *)
Fixpoint pick (fields : list (string * Val)) (names : list string)
  : list (string * Val) :=
  match names with
  | [] => []
  | n :: rest =>
      match obj_get fields n with
      | Some v => (n, v) :: pick fields rest
      | None => pick fields rest
      end
  end.

Definition fields_of (v : Val) : list (string * Val) :=
  match v with
  | VObj fields => fields
  | _ => []
  end.

Definition arg (n : nat) (args : list Val) : Val := nth n args VUndef.

(** The receiver ([this]) a function is invoked with.  The file is in
    strict mode, so a plain call [f(...)] leaves [this] undefined. *)
Inductive Receiver :=
| ThisUndefined
| ThisObject (id : Val).

(** ** Calls that leave the module *)

Inductive Effect :=
| ECall (tag : nat) (args : list Val)
| ERemoteCall (nodeId : Val) (name : string) (args : list Val) (callback : Val)
| ESetImmediate (callback : Val) (args : list Val)
| ECreateTransport (provider : Val) (addr : nat)
| ECreateGenerator (options : list (string * Val))
| EGenerateToken (username : string) (callback : Val)
| EClose (addr : nat)
| ESendMail (addr : nat) (email : Val) (callback : Val)
| EMethod (name : string) (args : list Val).

(** ** Objects held by the node *)

(** A pooled transport made by [nodemailer.createTransport]. *)
Record Transport := {
  provider : Val;
  auth : Val;
  closed : bool
}.

(** The object stored in [connectionCache]: [{it, cluster, key}], plus the
    [auth] property that [receivedCredentials] may add to it.  [cluster] is
    the directory of the node that created the entry, which is the one
    directory of the [World]. *)
Record ConnEntry := {
  conn_it : nat;
  conn_key : string;
  conn_auth : Val
}.

(** The two fields of an xoauth2 generator that the module reads. *)
Record Generator := {
  token : Val;
  timer : option Z
}.

(** The object stored in [credentialsCache]: [{it, cluster, key}]. *)
Record CredEntry := {
  cred_it : Generator;
  cred_key : string
}.

(** The functions this module assigns to [exports]. *)
Inductive Exported :=
| FgetSMTPConnection
| FestablishSMTPConnection
| FsendMail
| FgenerateOAuthCredentials
| FgetSMTPCredentials
| Finit.

Definition exports (name : string) : option Exported :=
  if String.eqb name "getSMTPConnection" then Some FgetSMTPConnection
  else if String.eqb name "establishSMTPConnection" then Some FestablishSMTPConnection
  else if String.eqb name "sendMail" then Some FsendMail
  else if String.eqb name "generateOAuthCredentials" then Some FgenerateOAuthCredentials
  else if String.eqb name "getSMTPCredentials" then Some FgetSMTPCredentials
  else if String.eqb name "init" then Some Finit
  else None.

Record World := {
  node_id : string;                            (* this.id *)
  cluster : gmap string Val;                   (* this.gossip.cluster *)
  peers_online : list string;                  (* answers of this.peerOnline *)
  methods : list string;                       (* other function properties of the node *)
  callbackQueue : gmap string (list Val);      (* this.callbackQueue *)
  oauthCredentials : Val;                      (* _oauthCredentials *)
  remoteCalls : list (string * option Exported); (* Dispatcher's registry *)
  transports : list Transport;
  connectionCache : list (string * ConnEntry); (* most recently used first *)
  credentialsCache : list (string * CredEntry);
  trace : list Effect
}.

Definition with_cluster (c : gmap string Val) (w : World) : World :=
  {| node_id := node_id w; cluster := c; peers_online := peers_online w;
     methods := methods w; callbackQueue := callbackQueue w;
     oauthCredentials := oauthCredentials w; remoteCalls := remoteCalls w;
     transports := transports w; connectionCache := connectionCache w;
     credentialsCache := credentialsCache w; trace := trace w |}.

Definition with_callbackQueue (q : gmap string (list Val)) (w : World) : World :=
  {| node_id := node_id w; cluster := cluster w; peers_online := peers_online w;
     methods := methods w; callbackQueue := q;
     oauthCredentials := oauthCredentials w; remoteCalls := remoteCalls w;
     transports := transports w; connectionCache := connectionCache w;
     credentialsCache := credentialsCache w; trace := trace w |}.

Definition with_oauthCredentials (o : Val) (w : World) : World :=
  {| node_id := node_id w; cluster := cluster w; peers_online := peers_online w;
     methods := methods w; callbackQueue := callbackQueue w;
     oauthCredentials := o; remoteCalls := remoteCalls w;
     transports := transports w; connectionCache := connectionCache w;
     credentialsCache := credentialsCache w; trace := trace w |}.

Definition with_remoteCalls (r : list (string * option Exported)) (w : World) : World :=
  {| node_id := node_id w; cluster := cluster w; peers_online := peers_online w;
     methods := methods w; callbackQueue := callbackQueue w;
     oauthCredentials := oauthCredentials w; remoteCalls := r;
     transports := transports w; connectionCache := connectionCache w;
     credentialsCache := credentialsCache w; trace := trace w |}.

Definition with_transports (t : list Transport) (w : World) : World :=
  {| node_id := node_id w; cluster := cluster w; peers_online := peers_online w;
     methods := methods w; callbackQueue := callbackQueue w;
     oauthCredentials := oauthCredentials w; remoteCalls := remoteCalls w;
     transports := t; connectionCache := connectionCache w;
     credentialsCache := credentialsCache w; trace := trace w |}.

Definition with_connectionCache (c : list (string * ConnEntry)) (w : World) : World :=
  {| node_id := node_id w; cluster := cluster w; peers_online := peers_online w;
     methods := methods w; callbackQueue := callbackQueue w;
     oauthCredentials := oauthCredentials w; remoteCalls := remoteCalls w;
     transports := transports w; connectionCache := c;
     credentialsCache := credentialsCache w; trace := trace w |}.

Definition with_credentialsCache (c : list (string * CredEntry)) (w : World) : World :=
  {| node_id := node_id w; cluster := cluster w; peers_online := peers_online w;
     methods := methods w; callbackQueue := callbackQueue w;
     oauthCredentials := oauthCredentials w; remoteCalls := remoteCalls w;
     transports := transports w; connectionCache := connectionCache w;
     credentialsCache := c; trace := trace w |}.

Definition with_trace (t : list Effect) (w : World) : World :=
  {| node_id := node_id w; cluster := cluster w; peers_online := peers_online w;
     methods := methods w; callbackQueue := callbackQueue w;
     oauthCredentials := oauthCredentials w; remoteCalls := remoteCalls w;
     transports := transports w; connectionCache := connectionCache w;
     credentialsCache := credentialsCache w; trace := t |}.

(** ** The monad: state, exceptions and fuel *)

Inductive Res (A : Type) :=
| Done (a : A)
| Thrown (message : string)
| OutOfFuel.
Arguments Done {A} a.
Arguments Thrown {A} message.
Arguments OutOfFuel {A}.

Definition M (A : Type) : Type := World → Res A * World.

Definition ret {A} (a : A) : M A := λ w, (Done a, w).

Definition bind {A B} (m : M A) (f : A → M B) : M B :=
  λ w, match m w with
       | (Done a, w') => f a w'
       | (Thrown e, w') => (Thrown e, w')
       | (OutOfFuel, w') => (OutOfFuel, w')
       end.

Notation "'let*' x ':=' m 'in' k" := (bind m (λ x, k))
  (at level 10, x name, m at level 100, k at level 200).
Notation "m ';;' k" := (bind m (λ _, k))
  (at level 100, k at level 200, right associativity).

Definition throw {A} (message : string) : M A := λ w, (Thrown message, w).
Definition out_of_fuel {A} : M A := λ w, (OutOfFuel, w).
Definition gets {A} (f : World → A) : M A := λ w, (Done (f w), w).
Definition modify (f : World → World) : M unit := λ w, (Done tt, f w).
Definition emit (e : Effect) : M unit :=
  modify (λ w, with_trace (trace w ++ [e]) w).

Fixpoint forEach {A} (f : A → M unit) (l : list A) : M unit :=
  match l with
  | [] => ret tt
  | x :: rest => f x ;; forEach f rest
  end.

(** Property read [v.name]. *)
Definition prop (v : Val) (name : string) : M Val :=
  match v with
  | VUndef | VNull => throw ("TypeError: Cannot read property '" +:+ name +:+ "'")
  | VObj fields => ret (default VUndef (obj_get fields name))
  | _ => ret VUndef
  end.

(** ** Collaborators of the module *)

(** Modelled from the spec: [this.ok], which the dispatcher defines outside
    this module; the operation key is "derived from (operation name,
    OwnerKey)". *)
Definition ok (operation username : string) : string :=
  operation +:+ ":" +:+ username.
Arguments ok : simpl never.

(** Modelled from the spec: [cluster.get(key)] and [cluster.set(key, value)]
    of the gossip directory (section 6: [get(key) -> value|absent],
    [set(key, value|null)]).  [set(key, null)] stores [null]; a read that
    yields [null] or [undefined] is an absent pointer. *)
Definition cluster_get (key : string) : M Val :=
  gets (λ w, default VUndef (cluster w !! key)).

Definition cluster_set (key : string) (v : Val) : M unit :=
  modify (λ w, with_cluster (<[key := v]> (cluster w)) w).

(** Modelled from the spec: [this.peerOnline(nodeId)], the liveness query
    of the membership layer (section 6: [isPeerLive(nodeId) -> bool]). *)
Definition peerOnline (nodeId : Val) : M bool :=
  gets (λ w, match nodeId with
             | VStr s => bool_decide (s ∈ peers_online w)
             | _ => false
             end).

(** [this.randomPeerOrSelf()] returns the node itself or the object of a
    peer; the module compares the result with [this] by identity. *)
Inductive Peer :=
| PeerSelf
| PeerOther (id : string).

(** What the outside world answers during one call of an exported function:
    the clock, the random draw and the generator xoauth2 would build. *)
Record Env := {
  now : Z;
  randomPeerOrSelf : Peer;
  newGenerator : Generator
}.

(** Modelled from the spec: [this.callbackQueue.add], the single-flight
    registry of the dispatcher (section 4.1).  With no operation pending for
    the key it marks one pending and returns the function that resolves the
    waiters; otherwise it queues the callback and returns [false]. *)
Definition callbackQueue_add (key : string) (callback : Val) : M Val :=
  let* pending := gets (λ w, callbackQueue w !! key) in
  match pending with
  | Some waiting =>
      modify (λ w, with_callbackQueue (<[key := waiting ++ [callback]]> (callbackQueue w)) w) ;;
      ret (VBool false)
  | None =>
      modify (λ w, with_callbackQueue (<[key := [callback]]> (callbackQueue w)) w) ;;
      ret (VFun (KQueued key))
  end.

(** ** The two LRU caches *)

Section LRU.
Context {V : Type}.

(** Modelled from the spec: the [lru-cache] package (section 4.2), a bounded
    mapping from owner to entry, kept here most recently used first.
    [lru_find] is the lookup by key. *)
Fixpoint lru_find (key : string) (items : list (string * V)) : option V :=
  match items with
  | [] => None
  | (k, v) :: rest => if String.eqb k key then Some v else lru_find key rest
  end.

(** Modelled from the spec: explicit removal of a key. *)
Fixpoint lru_remove (key : string) (items : list (string * V))
  : list (string * V) :=
  match items with
  | [] => []
  | (k, v) :: rest =>
      if String.eqb k key then lru_remove key rest
      else (k, v) :: lru_remove key rest
  end.

(** Modelled from the spec: "reads refresh recency". *)
Definition lru_touch (key : string) (items : list (string * V))
  : list (string * V) :=
  match lru_find key items with
  | Some v => (key, v) :: lru_remove key items
  | None => items
  end.

(** Modelled from the spec: "writes insert or replace". *)
Definition lru_put (key : string) (v : V) (items : list (string * V))
  : list (string * V) :=
  (key, v) :: lru_remove key items.

(** Modelled from the spec: what exceeds the maximum size is evicted from
    the least recently used end, the oldest entry first. *)
Definition lru_kept (max : nat) (items : list (string * V)) := take max items.
Definition lru_evicted (max : nat) (items : list (string * V)) :=
  rev (drop max items).
End LRU.

Definition connectionCache_max : nat := 1000.
Definition credentialsCache_max : nat := 10 * 1000.

(** [transport.close()]. *)
Definition close (t : Transport) : Transport :=
  {| provider := provider t; auth := auth t; closed := true |}.

Definition close_transport (addr : nat) : M unit :=
  modify (λ w, with_transports (alter close addr (transports w)) w) ;;
  emit (EClose addr).

(** [dispose] of [connectionCache]:
    [connection.it.close(); connection.cluster.set(connection.key, null)]. *)
Definition connectionCache_dispose (key : string) (connection : ConnEntry) : M unit :=
  close_transport (conn_it connection) ;;
  cluster_set (conn_key connection) VNull.

(** [dispose] of [credentialsCache]:
    [credentials.cluster.set(credentials.key, null)]. *)
Definition credentialsCache_dispose (key : string) (credentials : CredEntry) : M unit :=
  cluster_set (cred_key credentials) VNull.

(** [connectionCache.get], [.set] and [.del]; the entries that leave the
    cache go through [dispose]. *)
Definition connectionCache_get (username : string) : M Val :=
  let* items := gets connectionCache in
  match lru_find username items with
  | Some e =>
      modify (with_connectionCache (lru_touch username items)) ;;
      ret (VRef (RWrapper (conn_it e)))
  | None => ret VUndef
  end.

Definition connectionCache_set (username : string) (e : ConnEntry) : M unit :=
  let* items := gets connectionCache in
  modify (with_connectionCache (lru_kept connectionCache_max (lru_put username e items))) ;;
  forEach (λ p, connectionCache_dispose p.1 p.2)
          (lru_evicted connectionCache_max (lru_put username e items)).

Definition connectionCache_del (username : string) : M unit :=
  let* items := gets connectionCache in
  match lru_find username items with
  | Some e =>
      modify (with_connectionCache (lru_remove username items)) ;;
      connectionCache_dispose username e
  | None => ret tt
  end.

(** [credentialsCache.get], [.set] and [.del]. *)
Definition credentialsCache_get (username : string) : M (option CredEntry) :=
  let* items := gets credentialsCache in
  match lru_find username items with
  | Some e =>
      modify (with_credentialsCache (lru_touch username items)) ;;
      ret (Some e)
  | None => ret None
  end.

Definition credentialsCache_set (username : string) (e : CredEntry) : M unit :=
  let* items := gets credentialsCache in
  modify (with_credentialsCache (lru_kept credentialsCache_max (lru_put username e items))) ;;
  forEach (λ p, credentialsCache_dispose p.1 p.2)
          (lru_evicted credentialsCache_max (lru_put username e items)).

Definition credentialsCache_del (username : string) : M unit :=
  let* items := gets credentialsCache in
  match lru_find username items with
  | Some e =>
      modify (with_credentialsCache (lru_remove username items)) ;;
      credentialsCache_dispose username e
  | None => ret tt
  end.

(** ** Operations on the objects a continuation captured *)

(** [connection.auth = authenticationOptions]. *)
Definition set_auth (connection : Val) (v : Val) : M unit :=
  match connection with
  | VRef (RTransport a) =>
      modify (λ w, with_transports
        (alter (λ t, {| provider := provider t; auth := v; closed := closed t |})
               a (transports w)) w)
  | VRef (RWrapper a) =>
      modify (λ w, with_connectionCache
        (map (λ p, if Nat.eqb (conn_it p.2) a
                   then (p.1, {| conn_it := conn_it p.2; conn_key := conn_key p.2;
                                 conn_auth := v |})
                   else p)
             (connectionCache w)) w)
  | VUndef | VNull => throw "TypeError: Cannot set property 'auth'"
  | _ => ret tt
  end.

(** [connection.sendMail(email, next)]: only a transport has the method;
    the cached wrapper [{it, cluster, key}] does not. *)
Definition connection_sendMail (connection email next : Val) : M unit :=
  match connection with
  | VRef (RTransport a) => emit (ESendMail a email next)
  | VUndef | VNull => throw "TypeError: Cannot read property 'sendMail'"
  | _ => throw "TypeError: connection.sendMail is not a function"
  end.

(** [this.id] inside a callback. *)
Definition this_id (this : Receiver) : M Val :=
  match this with
  | ThisUndefined => throw "TypeError: Cannot read property 'id'"
  | ThisObject id => ret id
  end.

(** [typeof self[name] === 'function'] and the call [self[name](...)]:
    [methods w] lists the names under which the node holds a function that
    this module does not define. *)
Definition is_method (name : Val) : M bool :=
  gets (λ w, match name with
             | VStr s => bool_decide (s ∈ methods w)
             | _ => false
             end).

Definition call_method (name : string) (args : list Val) : M unit :=
  let* found := is_method (VStr name) in
  if found : bool then emit (EMethod name args)
  else throw ("TypeError: " +:+ name +:+ " is not a function").

(** ** Resuming a closure *)

(** Modelled from the spec: the function [this.callbackQueue.add] returns to
    the caller that proceeds (section 4.1).  On resolution every queued
    callback is invoked with the same arguments, in the order of
    registration, and then the pending record is cleared; resolving a key
    that is not pending does nothing.  [invoke] is the plain call of one
    callback. *)
Definition callbackQueue_resolve (invoke : Val → M unit) (key : string) : M unit :=
  let* pending := gets (λ w, callbackQueue w !! key) in
  match pending with
  | None => ret tt
  | Some waiting =>
      forEach invoke waiting ;;
      modify (λ w, with_callbackQueue (delete key (callbackQueue w)) w)
  end.

(** [call fuel f this args] is the call [f.apply(this, args)] for a function
    value made by this module, by the registry ([KQueued]) or by the caller
    ([KCaller], whose body is outside and only leaves [ECall] on the trace).
    Calling anything else is a TypeError.  The callbacks of the module call
    each other as plain functions. *)
Fixpoint call (fuel : nat) (f : Val) (this : Receiver) (args : list Val) : M unit :=
  match fuel with
  | O => out_of_fuel
  | S fuel =>
    match f with
    | VFun k =>
      let err := arg 0 args in
      let val := arg 1 args in
      match k with
      | KCaller tag => emit (ECall tag args)
      | KQueued key =>
          callbackQueue_resolve (λ cb, call fuel cb ThisUndefined args) key
      | KConnectionCallback operationKey callback =>
          (* connectionCallback(err, nodeId) *)
          if truthy err then call fuel callback ThisUndefined [err]
          else
            cluster_set operationKey val ;;
            call fuel callback ThisUndefined [VNull; val]
      | KReceivedCredentials connection callback =>
          (* receivedCredentials(err, authenticationOptions) *)
          if truthy err then call fuel callback ThisUndefined [err]
          else
            set_auth connection val ;;
            let* id := this_id this in
            call fuel callback ThisUndefined [VNull; id]
      | KGetSMTPConnectionNodeId username options next =>
          (* getSMTPConnectionNodeId(err, nodeId) *)
          if truthy err then call fuel next ThisUndefined [err]
          else
            let* self := gets node_id in
            if negb (strict_eq_str val self) then
              emit (ERemoteCall val "sendMail" [VStr username; options] next)
            else
              let* connection := connectionCache_get username in
              let* prepareEmailFunctionName := prop options "prepareEmailFunctionName" in
              let* email := prop options "email" in
              let* isFunction := is_method prepareEmailFunctionName in
              if negb (truthy prepareEmailFunctionName) || negb isFunction then
                connection_sendMail connection email next
              else
                match prepareEmailFunctionName with
                | VStr name =>
                    emit (EMethod name [VStr username; email;
                                        VFun (KSendPreparedEmail connection next)])
                | _ => ret tt
                end
      | KSendPreparedEmail connection next =>
          (* sendPreparedEmail(err, email) *)
          if truthy err then call fuel next ThisUndefined [err]
          else connection_sendMail connection val next
      | KRegenerateOAuthToken username callback =>
          (* regenerateOAuthToken(err, token) *)
          if truthy err then call fuel callback ThisUndefined [err]
          else call fuel callback ThisUndefined
                 [VNull; VObj [("user", VStr username); ("xoauth2", val)]]
      end
    | _ => throw "TypeError: not a function"
    end
  end.

(** ** The exported functions *)

(** Property key of a value, for [_oauthCredentials[provider]]. *)
Definition to_key (v : Val) : string :=
  match v with
  | VStr s => s
  | VUndef => "undefined"
  | VNull => "null"
  | VBool true => "true"
  | VBool false => "false"
  | _ => "[object Object]"
  end.

(** lodash [_.extend(target, source)]: the properties of the source win. *)
Definition extend (target : list (string * Val)) (source : Val)
  : list (string * Val) :=
  match source with
  | VObj fields => fields ++ target
  | _ => target
  end.

(** Modelled from the spec: [this._remoteCall(nodeId, name, args, callback)]
    of the RPC transport (section 6); the call leaves the module and its
    callback is resumed later. *)
Definition remoteCall (nodeId : Val) (name : string) (args : list Val)
  (callback : Val) : M unit :=
  emit (ERemoteCall nodeId name args callback).

Definition peer_id (p : Peer) (self : string) : string :=
  match p with
  | PeerSelf => self
  | PeerOther id => id
  end.

Definition generateOAuthCredentials (env : Env) (fuel : nat)
  (username : string) (credentials next : Val) : M unit :=
  let operationKey := ok "generateOAuthCredentials" username in
  let* callback := callbackQueue_add operationKey next in
  if negb (truthy callback) then ret tt
  else
    let* provider := prop credentials "provider" in
    let* cached := credentialsCache_get username in
    let* xoauth2Instance :=
      match cached with
      | None =>
          let* refreshToken := prop credentials "refreshToken" in
          let* secrets := (let* o := gets oauthCredentials in prop o (to_key provider)) in
          emit (ECreateGenerator
                  (extend [("user", VStr username); ("refreshToken", refreshToken)]
                          secrets)) ;;
          credentialsCache_set username
            {| cred_it := newGenerator env; cred_key := operationKey |} ;;
          ret (newGenerator env)
      | Some e => ret (cred_it e)
      end in
    let* self := gets node_id in
    cluster_set operationKey (VStr self) ;;
    if truthy (token xoauth2Instance)
       && match timer xoauth2Instance with
          | None => true
          | Some t => Z.eqb t 0 || Z.ltb (now env - 1000 * 60 * 5) t
          end
    then call fuel callback ThisUndefined
           [VNull; VObj [("user", VStr username); ("xoauth2", token xoauth2Instance)]]
    else emit (EGenerateToken username (VFun (KRegenerateOAuthToken username callback))).

Definition getSMTPCredentials (env : Env)
  (username : string) (credentials next : Val) : M unit :=
  let* provider := prop credentials "provider" in
  if strict_eq_str provider "gmail" then
    let* xoauth2Instance := credentialsCache_get username in
    match xoauth2Instance with
    | Some _ =>
        call_method "generateGmailCredentials" [VStr username; credentials; next]
    | None =>
        let oauthCredentialsKey := ok "generateOAuthCredentials" username in
        let* credentialsNodeId := cluster_get oauthCredentialsKey in
        let* online := peerOnline credentialsNodeId in
        if truthy credentialsNodeId && online then
          remoteCall credentialsNodeId "generateOAuthCredentials"
                     [VStr username; credentials] next
        else
          let* currentLeader := cluster_get "leader" in
          let* self := gets node_id in
          if negb (strict_eq_str currentLeader self) then
            remoteCall currentLeader "getSMTPCredentials"
                       [VStr username; credentials] next
          else
            let operationKey := ok "getSMTPCredentials" username in
            let* callback := callbackQueue_add operationKey next in
            match randomPeerOrSelf env with
            | PeerOther id =>
                remoteCall (VStr id) "generateOAuthCredentials"
                           [VStr username; credentials] callback
            | PeerSelf =>
                call_method "generateGmailCredentials"
                            [VStr username; credentials; callback]
            end
    end
  else if strict_eq_str provider "yahoo" || strict_eq_str provider "aol" then
    emit (ESetImmediate next [VObj (pick (fields_of credentials) ["user"; "pass"])])
  else
    emit (ESetImmediate next [VErr "passed provider is not supported"]).

Definition establishSMTPConnection (env : Env)
  (username : string) (credentials next : Val) : M unit :=
  let operationKey := ok "establishSMTPConnection" username in
  let* callback := callbackQueue_add operationKey next in
  if negb (truthy callback) then ret tt
  else
    let* cached := connectionCache_get username in
    let* connection :=
      if truthy cached then ret cached
      else
        let* provider := prop credentials "provider" in
        let* addr := gets (λ w, length (transports w)) in
        modify (λ w, with_transports
                  (transports w ++ [{| provider := provider; auth := VUndef;
                                       closed := false |}]) w) ;;
        emit (ECreateTransport provider addr) ;;
        connectionCache_set username
          {| conn_it := addr; conn_key := ok "getSMTPConnection" username;
             conn_auth := VUndef |} ;;
        ret (VRef (RTransport addr)) in
    getSMTPCredentials env username credentials
      (VFun (KReceivedCredentials connection callback)).

Definition getSMTPConnection (env : Env) (fuel : nat)
  (username : string) (credentials force next : Val) : M unit :=
  let* currentLeader := cluster_get "leader" in
  let operationKey := ok "getSMTPConnection" username in
  if truthy force then
    let* callback := callbackQueue_add operationKey next in
    if negb (truthy callback) then ret tt
    else establishSMTPConnection env username credentials
           (VFun (KConnectionCallback operationKey callback))
  else
    let* self := gets node_id in
    if negb (strict_eq_str currentLeader self) then
      remoteCall currentLeader "getSMTPConnection"
                 [VStr username; credentials; VBool false] next
    else
      let* smtpNodeId := cluster_get operationKey in
      let* online := peerOnline smtpNodeId in
      if truthy smtpNodeId && online then
        call fuel next ThisUndefined [VNull; smtpNodeId]
      else if strict_eq_str smtpNodeId self then
        establishSMTPConnection env username credentials next
      else
        let* callback := callbackQueue_add operationKey next in
        match randomPeerOrSelf env with
        | PeerOther id =>
            remoteCall (VStr id) "establishSMTPConnection"
                       [VStr username; credentials; VBool true]
                       (VFun (KConnectionCallback operationKey callback))
        | PeerSelf =>
            establishSMTPConnection env username credentials
              (VFun (KConnectionCallback operationKey callback))
        end.

(** [sendMail] calls [this.getSMTPConnection] with three arguments, so its
    callback lands in the [force] parameter and [next] is [undefined]. *)
Definition sendMail (env : Env) (fuel : nat)
  (username : string) (options next : Val) : M unit :=
  let* credentials := prop options "credentials" in
  getSMTPConnection env fuel username credentials
    (VFun (KGetSMTPConnectionNodeId username options next)) VUndef.

(** [Dispatcher.attachRemoteCall(name, fn)]. *)
Definition attachRemoteCall (name : string) (fn : option Exported) : M unit :=
  modify (λ w, with_remoteCalls (remoteCalls w ++ [(name, fn)]) w).

Definition registered (w : World) (name : string) : option (option Exported) :=
  snd <$> find (λ p, String.eqb p.1 name) (rev (remoteCalls w)).

Definition init (oauthCredentials : Val) : M unit :=
  modify (with_oauthCredentials oauthCredentials) ;;
  attachRemoteCall "getSMTPConnection" (exports "getSMTPConnection") ;;
  attachRemoteCall "establishSMTPConnection" (exports "establishSMTPConnection") ;;
  attachRemoteCall "getSMTPCredentials" (exports "getSMTPCredentials") ;;
  attachRemoteCall "generateOAuthCredentials" (exports "generateGmailCredentials") ;;
  attachRemoteCall "sendMail" (exports "sendMail").

(** ** Sample worlds

    A three node cluster [L], [A], [B] seen from one of its nodes, with the
    directory holding only the leader. *)

Definition node (id : string) : World :=
  {| node_id := id;
     cluster := {[ "leader" := VStr "L" ]};
     peers_online := ["L"; "A"; "B"];
     methods := [];
     callbackQueue := ∅;
     oauthCredentials := VObj [];
     remoteCalls := [];
     transports := [];
     connectionCache := [];
     credentialsCache := [];
     trace := [] |}.

Definition draws (p : Peer) : Env :=
  {| now := 1700000000000;
     randomPeerOrSelf := p;
     newGenerator := {| token := VBool false; timer := None |} |}.

Definition account (provider : string) : Val :=
  VObj [("provider", VStr provider); ("user", VStr "u@example.org");
        ("pass", VStr "secret"); ("refreshToken", VStr "1/refresh")].

(** The options of a send on the account of [provider]. *)
Definition letter (provider : string) : Val :=
  VObj [("credentials", account provider);
        ("email", VObj [("to", VStr "friend@example.org"); ("subject", VStr "hello")])].

(** Runs [m] and keeps the world it leaves. *)
Definition after {A} (m : M A) (w : World) : World := (m w).2.
Definition outcome {A} (m : M A) (w : World) : Res A := (m w).1.

(** The effects that are calls of [nodemailer.createTransport]. *)
Definition creations (w : World) : list Effect :=
  List.filter (λ e, match e with ECreateTransport _ _ => true | _ => false end)
              (trace w).

(** Node [w] once the directory names [peer] as the holder of the token
    generator of [u]. *)
Definition credentials_owned_by (peer : string) (w : World) : World :=
  with_cluster (<["generateOAuthCredentials:u" := VStr peer]> (cluster w)) w.

(** Owners for the sample caches: they are numbered, and named by the binary
    digits of their number. *)
Fixpoint owner (n : positive) : string :=
  match n with
  | xH => "1"
  | xO n => "0" +:+ owner n
  | xI n => "1" +:+ owner n
  end.

Fixpoint numbered {A} (f : positive → A) (from : positive) (count : nat) : list A :=
  match count with
  | O => []
  | S count => f from :: numbered f (Pos.succ from) count
  end.

Definition connection_of (n : positive) : string * ConnEntry :=
  (owner n, {| conn_it := pred (Pos.to_nat n);
               conn_key := ok "getSMTPConnection" (owner n);
               conn_auth := VUndef |}).

Definition generator_of (n : positive) : string * CredEntry :=
  (owner n, {| cred_it := {| token := VStr "ya29.token"; timer := Some 1699999000000%Z |};
               cred_key := ok "generateOAuthCredentials" (owner n) |}).

Definition idle_transport : Transport :=
  {| provider := VStr "gmail"; auth := VUndef; closed := false |}.

(** Node [A] with a full [connectionCache] and no generator. *)
Definition connections_full_node : World :=
  with_connectionCache (numbered connection_of 1 connectionCache_max)
    (with_transports (numbered (λ _, idle_transport) 1 connectionCache_max)
       (node "A")).

(** Node [A] with a full [credentialsCache] and no connection. *)
Definition generators_full_node : World :=
  with_credentialsCache (numbered generator_of 1 credentialsCache_max) (node "A").

(** Node [A] holding the one connection of owner [1]. *)
Definition connected_node : World :=
  with_connectionCache [connection_of 1]
    (with_transports [idle_transport] (node "A")).

(** Node [A] holding the token generator of owner [7], as the directory
    says. *)
Definition token_node : World :=
  with_cluster (<[ok "generateOAuthCredentials" (owner 7) := VStr "A"]> (cluster (node "A")))
    (with_credentialsCache [generator_of 7] (node "A")).

(** The callbacks of the callers numbered [tags], as queued waiters. *)
Definition callers (tags : list nat) : list Val :=
  map (λ tag, VFun (KCaller tag)) tags.

(** The leader with two callers waiting on the acquisition for [u]. *)
Definition waiting_leader : World :=
  with_callbackQueue {[ ok "getSMTPConnection" "u" := callers [1; 2]%nat ]} (node "L").

(** [w] once the waiters [tags] of [key] were told [args] and the pending
    record was cleared; nothing else differs from [w]. *)
Definition told (key : string) (tags : list nat) (args : list Val) (w : World) : World :=
  with_callbackQueue (delete key (callbackQueue w))
    (with_trace (trace w ++ map (λ tag, ECall tag args) tags) w).

(** A generation that proceeds on a cached generator, up to the test of
    freshness: the waiter is registered, the entry is touched and the
    pointer is written. *)
Definition generation_started (key username : string) (next : Val) (w : World) : World :=
  with_cluster (<[key := VStr (node_id w)]> (cluster w))
    (with_credentialsCache (lru_touch username (credentialsCache w))
       (with_callbackQueue (<[key := [next]]> (callbackQueue w)) w)).


(** The leader [L] once the directory names [peer] as the home of the
    connection of [u]. *)
Definition connection_owned_by (peer : string) : World :=
  with_cluster (<[ok "getSMTPConnection" "u" := VStr peer]> (cluster (node "L")))
    (node "L").

(** ** What the disposal of an evicted entry leaves behind *)

(** The entry of a connection: the transport is closed and the pointer of
    the entry reads [null]. *)
Definition connection_disposed (w' : World) (e : ConnEntry) : Prop :=
  cluster_get (conn_key e) w' = (Done VNull, w')
  ∧ EClose (conn_it e) ∈ trace w'
  ∧ ∀ t, transports w' !! conn_it e = Some t → closed t = true.

(** The entry of a generator: the pointer of the entry reads [null]; no
    call left the module and no transport changed. *)
Definition generator_forgotten (w w' : World) (c : CredEntry) : Prop :=
  cluster_get (cred_key c) w' = (Done VNull, w')
  ∧ trace w' = trace w
  ∧ transports w' = transports w.

(** No effect in [new] is an answer to a caller. *)
Definition no_answer (new : list Effect) : Prop :=
  Forall (λ e, ∀ tag args, e ≠ ECall tag args) new.

(** [m] only adds effects that satisfy [P] to the trace. *)
Definition adds {A} (P : Effect → Prop) (m : M A) : Prop :=
  ∀ w, ∃ new, trace (after m w) = trace w ++ new ∧ Forall P new.

(** * Properties *)

(** ** Reasoning about the monad *)

Lemma bind_done {A B} (m : M A) (f : A → M B) w a w' :
  m w = (Done a, w') → bind m f w = f a w'.
Proof. intros H. unfold bind. by rewrite H. Qed.

(** ** Registration of the remote calls *)

(** C10 (the code departs from it).  After [init] the name
    [generateOAuthCredentials] is in the registry, but the value bound to it
    is [exports.generateGmailCredentials], which this module never defines:
    the generate-token operation is registered as [undefined].  The other
    four names are bound to the functions of the same name. *)
Theorem init_binds_generate_token_to_undefined (o : Val) (w : World) :
  registered (after (init o) w) "generateOAuthCredentials" = Some None
  ∧ registered (after (init o) w) "getSMTPConnection" = Some (Some FgetSMTPConnection)
  ∧ registered (after (init o) w) "establishSMTPConnection"
    = Some (Some FestablishSMTPConnection)
  ∧ registered (after (init o) w) "getSMTPCredentials" = Some (Some FgetSMTPCredentials)
  ∧ registered (after (init o) w) "sendMail" = Some (Some FsendMail).
Proof.
  unfold registered, after, init, attachRemoteCall, modify, bind; simpl.
  rewrite !rev_app_distr. simpl. repeat split; reflexivity.
Qed.

(** ** Credential providers *)

(** C6 (the code departs from it).  For [yahoo] the continuation is
    scheduled at once and nothing else happens, but it is given the picked
    [{user, pass}] object as its only argument, which is the error slot of
    the [(err, value)] convention; [receivedCredentials] therefore takes the
    failure branch and hands the object on as an error without setting
    [auth].  An unsupported provider does fail at once with an [Error]. *)
Theorem static_provider_answers_in_the_error_slot
  (env : Env) (fuel : nat) (username : string) (rest : list (string * Val))
  (next connection : Val) (tag : nat) (this : Receiver) (w : World) :
  let credentials := VObj (("provider", VStr "yahoo") :: rest) in
  let picked := VObj (pick (("provider", VStr "yahoo") :: rest) ["user"; "pass"]) in
  getSMTPCredentials env username credentials next w
  = (Done tt, with_trace (trace w ++ [ESetImmediate next [picked]]) w)
  ∧ arg 0 [picked] = picked
  ∧ arg 1 [picked] = VUndef
  ∧ truthy picked = true
  ∧ call (S (S fuel)) (VFun (KReceivedCredentials connection (VFun (KCaller tag))))
         this [picked] w
    = (Done tt, with_trace (trace w ++ [ECall tag [picked]]) w)
  ∧ getSMTPCredentials env username (VObj (("provider", VStr "unknown") :: rest)) next w
    = (Done tt,
       with_trace (trace w ++ [ESetImmediate next [VErr "passed provider is not supported"]]) w).
Proof.
  repeat split.
Qed.

(** ** Sending *)

(** C9 (the code departs from it).  [sendMail] passes its callback to
    [getSMTPConnection] in the position of [force]: whatever the request,
    a send is exactly a forced acquisition whose [next] is [undefined].  The
    callback that would forward or perform the send is dropped, and so are
    the caller's [next] and the e-mail.  On the leader, with the credentials
    coming back from [B] without error: the acquisition resolves a queue
    whose only waiter is [undefined], which throws; nothing is sent or
    forwarded and the caller is never told. *)
Theorem sendMail_is_a_forced_acquisition_without_callback
  (env : Env) (fuel : nat) (username : string) (options next : Val) (w : World) :
  sendMail env fuel username options next w
  = (let* credentials := prop options "credentials" in
     getSMTPConnection env fuel username credentials (VBool true) VUndef) w
  ∧ let send := sendMail (draws PeerSelf) 6 "u" (letter "gmail") (VFun (KCaller 9)) in
    let received := VFun (KReceivedCredentials (VRef (RTransport 0))
                            (VFun (KQueued "establishSMTPConnection:u"))) in
    let token := VObj [("user", VStr "u"); ("xoauth2", VStr "token")] in
    let back := call 6 received (ThisObject (VStr "L")) [VNull; token] in
    trace (after send (credentials_owned_by "B" (node "L")))
    = [ECreateTransport (VStr "gmail") 0;
       ERemoteCall (VStr "B") "generateOAuthCredentials" [VStr "u"; account "gmail"]
                   received]
    ∧ callbackQueue (after send (credentials_owned_by "B" (node "L")))
        !! "getSMTPConnection:u" = Some [VUndef]
    ∧ outcome (send ;; back) (credentials_owned_by "B" (node "L"))
      = Thrown "TypeError: not a function"
    ∧ trace (after (send ;; back) (credentials_owned_by "B" (node "L")))
      = trace (after send (credentials_owned_by "B" (node "L"))).
Proof.
  split.
  - unfold sendMail, bind.
    destruct (prop options "credentials" w) as [[credentials | e |] w']; reflexivity.
  - vm_compute. repeat split.
Qed.

(** ** Single flight on the leader *)

(** C1 (the code departs from it).  On the leader [L], with no pointer for
    the owner, a second acquisition arrives while the first is in flight.
    The assignment branch does not look at what the registry returned, so
    the second request draws a peer of its own: the owner is sent to [A] and
    to [B], and each of the two nodes, establishing the connection, creates
    a transport. *)
Theorem concurrent_acquisitions_are_sent_to_two_nodes :
  let key := "getSMTPConnection:u" in
  let first := getSMTPConnection (draws (PeerOther "A")) 4 "u" (account "gmail")
                 (VBool false) (VFun (KCaller 1)) in
  let second := getSMTPConnection (draws (PeerOther "B")) 4 "u" (account "gmail")
                  (VBool false) (VFun (KCaller 2)) in
  let establish := establishSMTPConnection (draws PeerSelf) "u" (account "gmail")
                     (VFun (KCaller 3)) in
  trace (after (first ;; second) (node "L"))
  = [ERemoteCall (VStr "A") "establishSMTPConnection"
       [VStr "u"; account "gmail"; VBool true]
       (VFun (KConnectionCallback key (VFun (KQueued key))));
     ERemoteCall (VStr "B") "establishSMTPConnection"
       [VStr "u"; account "gmail"; VBool true]
       (VFun (KConnectionCallback key (VBool false)))]
  ∧ creations (after establish (node "A")) = [ECreateTransport (VStr "gmail") 0]
  ∧ creations (after establish (node "B")) = [ECreateTransport (VStr "gmail") 0].
Proof. vm_compute. repeat split. Qed.

(** C2 (the code departs from it).  Two callers that register without
    checking the result.  In [getSMTPCredentials] the second registration
    returns [false], and yet a second remote generation is started, with
    [false] as its continuation.  In [getSMTPConnection] the same happens;
    when the answer to the first request arrives both waiters are told [A],
    and when the answer to the second arrives the pointer is overwritten
    with [B] and calling [false] throws. *)
Theorem unchecked_registration_starts_duplicate_work :
  let ckey := "getSMTPCredentials:u" in
  let credentials := getSMTPCredentials (draws (PeerOther "A")) "u" (account "gmail") in
  let key := "getSMTPConnection:u" in
  let acquire p := getSMTPConnection (draws (PeerOther p)) 4 "u" (account "gmail")
                     (VBool false) in
  let both := acquire "A" (VFun (KCaller 1)) ;; acquire "B" (VFun (KCaller 2)) in
  let answer1 := call 4 (VFun (KConnectionCallback key (VFun (KQueued key))))
                   ThisUndefined [VNull; VStr "A"] in
  let answer2 := call 4 (VFun (KConnectionCallback key (VBool false)))
                   ThisUndefined [VNull; VStr "B"] in
  outcome (callbackQueue_add ckey (VFun (KCaller 2)))
          (after (credentials (VFun (KCaller 1))) (node "L"))
  = Done (VBool false)
  ∧ trace (after (credentials (VFun (KCaller 1)) ;; credentials (VFun (KCaller 2)))
                 (node "L"))
    = [ERemoteCall (VStr "A") "generateOAuthCredentials" [VStr "u"; account "gmail"]
         (VFun (KQueued ckey));
       ERemoteCall (VStr "A") "generateOAuthCredentials" [VStr "u"; account "gmail"]
         (VBool false)]
  ∧ outcome (callbackQueue_add key (VFun (KCaller 2)))
            (after (acquire "A" (VFun (KCaller 1))) (node "L"))
    = Done (VBool false)
  ∧ List.filter (λ e, match e with ECall _ _ => true | _ => false end)
                (trace (after (both ;; answer1) (node "L")))
    = [ECall 1 [VNull; VStr "A"]; ECall 2 [VNull; VStr "A"]]
  ∧ outcome (both ;; answer1 ;; answer2) (node "L")
    = Thrown "TypeError: not a function"
  ∧ cluster (after (both ;; answer1 ;; answer2) (node "L")) !! key = Some (VStr "B").
Proof. vm_compute. repeat split. Qed.

(** ** Establishing a connection *)

(** Whatever the node, a successful [receivedCredentials] confirms with the
    [id] of its receiver, and throws when it has none. *)
Lemma confirmation_is_the_id_of_the_receiver fuel addr callback options id w :
  let received := VFun (KReceivedCredentials (VRef (RTransport addr)) callback) in
  let updated := with_transports
                   (alter (λ t, {| provider := provider t; auth := options;
                                   closed := closed t |}) addr (transports w)) w in
  call (S fuel) received (ThisObject id) [VNull; options] w
  = call fuel callback ThisUndefined [VNull; id] updated
  ∧ call (S fuel) received ThisUndefined [VNull; options] w
    = (Thrown "TypeError: Cannot read property 'id'", updated).
Proof. split; reflexivity. Qed.

(** C8 (the code departs from it).  The confirmation is [this.id] read
    inside the nested callback [receivedCredentials], so it is the [id] of
    whatever receiver the callback is invoked with, never that of the node
    as such.  On node [A], whose token generator lives on the live peer [B],
    the credentials come back through the remote call: invoked as a plain
    function the callback sets [auth] on the new transport and then throws,
    and the caller is never answered; invoked on some other object it
    answers with the [id] of that object. *)
Theorem establish_confirms_with_the_receiver_of_the_callback :
  let w := credentials_owned_by "B" (node "A") in
  let establish := establishSMTPConnection (draws PeerSelf) "u" (account "gmail")
                     (VFun (KCaller 1)) in
  let received := VFun (KReceivedCredentials (VRef (RTransport 0))
                          (VFun (KQueued "establishSMTPConnection:u"))) in
  let options := VObj [("user", VStr "u"); ("xoauth2", VStr "token")] in
  trace (after establish w)
  = [ECreateTransport (VStr "gmail") 0;
     ERemoteCall (VStr "B") "generateOAuthCredentials" [VStr "u"; account "gmail"]
                 received]
  ∧ outcome (establish ;; call 4 received ThisUndefined [VNull; options]) w
    = Thrown "TypeError: Cannot read property 'id'"
  ∧ trace (after (establish ;; call 4 received ThisUndefined [VNull; options]) w)
    = trace (after establish w)
  ∧ auth <$> transports (after (establish ;; call 4 received ThisUndefined
                                   [VNull; options]) w) !! 0%nat
    = Some options
  ∧ List.filter (λ e, match e with ECall _ _ => true | _ => false end)
      (trace (after (establish ;;
                     call 4 received (ThisObject (VStr "B")) [VNull; options]) w))
    = [ECall 1 [VNull; VStr "B"]].
Proof. vm_compute. repeat split. Qed.

(** ** Eviction *)

Section Disposal.

Lemma connectionCache_dispose_run k e w :
  connectionCache_dispose k e w
  = (Done tt,
     with_cluster (<[conn_key e := VNull]> (cluster w))
       (with_trace (trace w ++ [EClose (conn_it e)])
          (with_transports (alter close (conn_it e) (transports w)) w))).
Proof. reflexivity. Qed.

Lemma credentialsCache_dispose_run k c w :
  credentialsCache_dispose k c w
  = (Done tt, with_cluster (<[cred_key c := VNull]> (cluster w)) w).
Proof. reflexivity. Qed.

(** Disposing a list of connections, one after the other. *)
Lemma dispose_connections l : ∀ w,
  let w' := after (forEach (λ p, connectionCache_dispose p.1 p.2) l) w in
  (∀ k, cluster w !! k = Some VNull → cluster w' !! k = Some VNull)
  ∧ (∀ x, x ∈ trace w → x ∈ trace w')
  ∧ (∀ a, (∀ t, transports w !! a = Some t → closed t = true) →
          ∀ t, transports w' !! a = Some t → closed t = true)
  ∧ ∀ p, p ∈ l → connection_disposed w' p.2.
Proof.
  induction l as [|[k e] l IH]; intros w.
  - cbn. split_and!; auto. intros p Hp. by apply elem_of_nil in Hp.
  - unfold after. cbn [forEach].
    rewrite (bind_done _ _ _ _ _ (connectionCache_dispose_run k e w)).
    set (w1 := with_cluster _ _).
    destruct (IH w1) as (Hc & Ht & Hx & Hl). fold (after (forEach (λ p, connectionCache_dispose p.1 p.2) l) w1) in *.
    set (w' := after _ w1) in *.
    assert (Hc1 : ∀ k', cluster w !! k' = Some VNull → cluster w1 !! k' = Some VNull).
    { intros k' Hk'. subst w1. cbn.
      destruct (decide (k' = conn_key e)) as [Heq|Hne].
      - subst k'. by rewrite lookup_insert_eq.
      - by rewrite lookup_insert_ne. }
    assert (Hx1 : ∀ a, (∀ t, transports w !! a = Some t → closed t = true) →
                       ∀ t, transports w1 !! a = Some t → closed t = true).
    { intros a Ha t. subst w1. cbn. rewrite list_lookup_alter.
      case_decide; [|by apply Ha].
      intros Hs. by apply fmap_Some in Hs as (t0 & _ & ->). }
    split_and!.
    + intros k' Hk'. by apply Hc, Hc1.
    + intros x Hin. apply Ht. subst w1. cbn. apply elem_of_app. by left.
    + intros a Ha. by apply Hx, Hx1.
    + intros p Hp. apply elem_of_cons in Hp as [->|Hp]; [|by apply Hl].
      cbn [snd]. split_and!.
      * unfold cluster_get, gets.
        rewrite (Hc (conn_key e)); [done|]. subst w1. cbn. by rewrite lookup_insert_eq.
      * apply Ht. subst w1. cbn. apply elem_of_app. right. by apply list_elem_of_singleton.
      * apply Hx. intros t. subst w1. cbn. rewrite list_lookup_alter.
        case_decide; [|done].
        intros Hs. by apply fmap_Some in Hs as (t0 & _ & ->).
Qed.

(** Disposing a list of generators. *)
Lemma dispose_generators l : ∀ w,
  let w' := after (forEach (λ p, credentialsCache_dispose p.1 p.2) l) w in
  (∀ k, cluster w !! k = Some VNull → cluster w' !! k = Some VNull)
  ∧ trace w' = trace w
  ∧ transports w' = transports w
  ∧ ∀ p, p ∈ l → cluster w' !! cred_key p.2 = Some VNull.
Proof.
  induction l as [|[k c] l IH]; intros w.
  - cbn. split_and!; auto. intros p Hp. by apply elem_of_nil in Hp.
  - unfold after. cbn [forEach].
    rewrite (bind_done _ _ _ _ _ (credentialsCache_dispose_run k c w)).
    set (w1 := with_cluster _ _).
    destruct (IH w1) as (Hc & Ht & Hx & Hl).
    fold (after (forEach (λ p, credentialsCache_dispose p.1 p.2) l) w1) in *.
    set (w' := after _ w1) in *.
    split_and!.
    + intros k' Hk'. apply Hc. subst w1. cbn.
      destruct (decide (k' = cred_key c)) as [Heq|Hne].
      * subst k'. by rewrite lookup_insert_eq.
      * by rewrite lookup_insert_ne.
    + by rewrite Ht.
    + by rewrite Hx.
    + intros p Hp. apply elem_of_cons in Hp as [->|Hp]; [|by apply Hl].
      apply Hc. subst w1. cbn. by rewrite lookup_insert_eq.
Qed.

End Disposal.

Lemma connectionCache_set_run u e w :
  after (connectionCache_set u e) w
  = after (forEach (λ p, connectionCache_dispose p.1 p.2)
             (lru_evicted connectionCache_max (lru_put u e (connectionCache w))))
      (with_connectionCache
         (lru_kept connectionCache_max (lru_put u e (connectionCache w))) w).
Proof. reflexivity. Qed.

Lemma credentialsCache_set_run u c w :
  after (credentialsCache_set u c) w
  = after (forEach (λ p, credentialsCache_dispose p.1 p.2)
             (lru_evicted credentialsCache_max (lru_put u c (credentialsCache w))))
      (with_credentialsCache
         (lru_kept credentialsCache_max (lru_put u c (credentialsCache w))) w).
Proof. reflexivity. Qed.

(** C3, as the code has it.  An entry that leaves [connectionCache], pushed
    out by a write into the full cache or removed by key, has its transport
    closed and its directory pointer set to [null].  An entry that leaves
    [credentialsCache] only has its pointer set to [null]: the hook of that
    cache closes nothing.  In both cases a read of the pointer right after
    the eviction yields [null].  Each of the four ways out of a cache is
    stated on its own, for any world: a cache need not be full for a
    removal, and the other cache is not constrained. *)
Theorem eviction_closes_connections_and_clears_pointers :
  (∀ (w : World) (u : string) (e : ConnEntry) (p : string * ConnEntry),
     p ∈ lru_evicted connectionCache_max (lru_put u e (connectionCache w)) →
     connection_disposed (after (connectionCache_set u e) w) p.2)
  ∧ (∀ (w : World) (u : string) (e : ConnEntry),
       lru_find u (connectionCache w) = Some e →
       connection_disposed (after (connectionCache_del u) w) e)
  ∧ (∀ (w : World) (u : string) (c : CredEntry) (q : string * CredEntry),
       q ∈ lru_evicted credentialsCache_max (lru_put u c (credentialsCache w)) →
       generator_forgotten w (after (credentialsCache_set u c) w) q.2)
  ∧ (∀ (w : World) (u : string) (c : CredEntry),
       lru_find u (credentialsCache w) = Some c →
       generator_forgotten w (after (credentialsCache_del u) w) c).
Proof.
  split_and!.
  - intros w u e p Hp. rewrite connectionCache_set_run. by apply dispose_connections.
  - intros w u e Hf. unfold after, connectionCache_del, bind, gets. rewrite Hf. cbn.
    split_and!.
    + unfold cluster_get, gets. cbn. by rewrite lookup_insert_eq.
    + apply elem_of_app. right. by apply list_elem_of_singleton.
    + intros t. cbn. rewrite list_lookup_alter. case_decide; [|done].
      intros Hs. by apply fmap_Some in Hs as (t0 & _ & ->).
  - intros w u c q Hq. rewrite credentialsCache_set_run.
    destruct (dispose_generators
                (lru_evicted credentialsCache_max (lru_put u c (credentialsCache w)))
                (with_credentialsCache
                   (lru_kept credentialsCache_max (lru_put u c (credentialsCache w))) w))
      as (_ & Ht & Hx & Hl).
    split_and!; [|exact Ht|exact Hx].
    unfold cluster_get, gets. by rewrite (Hl q Hq).
  - intros w u c Hf. unfold after, credentialsCache_del, bind, gets. rewrite Hf. cbn.
    split_and!; [|done..].
    unfold cluster_get, gets. cbn. by rewrite lookup_insert_eq.
Qed.

Lemma eviction_closes_connections_and_clears_pointers_witness :
  let fresh := {| conn_it := 1000; conn_key := ok "getSMTPConnection" "new";
                  conn_auth := VUndef |} in
  let generator := {| cred_it := newGenerator (draws PeerSelf);
                      cred_key := ok "generateOAuthCredentials" "new" |} in
  connection_disposed (after (connectionCache_set "new" fresh) connections_full_node)
                      (connection_of 1000).2
  ∧ connection_disposed (after (connectionCache_del (owner 1)) connected_node)
                        (connection_of 1).2
  ∧ generator_forgotten generators_full_node
      (after (credentialsCache_set "new" generator) generators_full_node)
      (generator_of 10000).2
  ∧ generator_forgotten token_node (after (credentialsCache_del (owner 7)) token_node)
                        (generator_of 7).2.
Proof.
  intros fresh generator.
  destruct eviction_closes_connections_and_clears_pointers
    as (Hset & Hdel & Hset' & Hdel').
  split_and!.
  - apply (Hset connections_full_node "new" fresh (connection_of 1000)).
    vm_compute. left.
  - apply (Hdel connected_node (owner 1) (connection_of 1).2).
    vm_compute. reflexivity.
  - apply (Hset' generators_full_node "new" generator (generator_of 10000)).
    vm_compute. left.
  - apply (Hdel' token_node (owner 7) (generator_of 7).2).
    vm_compute. reflexivity.
Defined.

(** C3, as stated, fails for the generators.  The generator of owner [7]
    is removed from [credentialsCache]: the entry is gone and its pointer
    is cleared, but not one call left the module and no object changed, so
    nothing was released or closed. *)
Lemma evicted_generator_is_not_released :
  let w := token_node in
  let w' := after (credentialsCache_del (owner 7)) w in
  lru_find (owner 7) (credentialsCache w) = Some (generator_of 7).2
  ∧ lru_find (owner 7) (credentialsCache w') = None
  ∧ cluster w !! cred_key (generator_of 7).2 = Some (VStr "A")
  ∧ cluster w' !! cred_key (generator_of 7).2 = Some VNull
  ∧ trace w' = []
  ∧ transports w' = transports w.
Proof. vm_compute. repeat split. Qed.

(** ** Failures *)

Lemma with_trace_same w : with_trace (trace w) w = w.
Proof. by destruct w. Qed.

(** The equations of [call], one per closure. *)
Lemma call_caller fuel tag this args :
  call (S fuel) (VFun (KCaller tag)) this args = emit (ECall tag args).
Proof. reflexivity. Qed.

Lemma call_queued fuel key this args :
  call (S fuel) (VFun (KQueued key)) this args
  = callbackQueue_resolve (λ cb, call fuel cb ThisUndefined args) key.
Proof. reflexivity. Qed.

Lemma call_connectionCallback fuel key callback this args :
  call (S fuel) (VFun (KConnectionCallback key callback)) this args
  = if truthy (arg 0 args) then call fuel callback ThisUndefined [arg 0 args]
    else cluster_set key (arg 1 args) ;;
         call fuel callback ThisUndefined [VNull; arg 1 args].
Proof. reflexivity. Qed.

Lemma call_receivedCredentials fuel connection callback this args :
  call (S fuel) (VFun (KReceivedCredentials connection callback)) this args
  = if truthy (arg 0 args) then call fuel callback ThisUndefined [arg 0 args]
    else set_auth connection (arg 1 args) ;;
         let* id := this_id this in
         call fuel callback ThisUndefined [VNull; id].
Proof. reflexivity. Qed.

Lemma call_regenerateOAuthToken fuel username callback this args :
  call (S fuel) (VFun (KRegenerateOAuthToken username callback)) this args
  = if truthy (arg 0 args) then call fuel callback ThisUndefined [arg 0 args]
    else call fuel callback ThisUndefined
           [VNull; VObj [("user", VStr username); ("xoauth2", arg 1 args)]].
Proof. reflexivity. Qed.

(** Resolving waiters that are callers: each is told the arguments, in the
    order of registration. *)
Lemma forEach_callers fuel args tags : ∀ w,
  forEach (λ cb, call (S fuel) cb ThisUndefined args) (callers tags) w
  = (Done tt, with_trace (trace w ++ map (λ tag, ECall tag args) tags) w).
Proof.
  induction tags as [|tag tags IH]; intros w.
  - cbn. by rewrite app_nil_r, with_trace_same.
  - cbn [callers map forEach]. fold (callers tags).
    unfold bind at 1. rewrite call_caller. unfold emit, modify.
    rewrite IH. cbn. by rewrite <- app_assoc.
Qed.

Lemma resolve_callers fuel key args tags this w :
  callbackQueue w !! key = Some (callers tags) →
  call (2 + fuel) (VFun (KQueued key)) this args w = (Done tt, told key tags args w).
Proof.
  intros Hq. change (2 + fuel)%nat with (S (S fuel)). rewrite call_queued.
  unfold callbackQueue_resolve, bind at 1, gets at 1. rewrite Hq.
  unfold bind at 1. rewrite forEach_callers. reflexivity.
Qed.

(** C7, as the code has it.  When establishing the connection or refreshing
    the token fails, the callback of the failed step hands the error to the
    function that resolves the waiters: every waiter is told the error, the
    pending record is cleared, and neither the directory nor a cache is
    written.  The pointer of the acquisition is written by
    [connectionCallback] on success only. *)
Theorem failure_is_told_to_every_waiter_and_writes_nothing
  (fuel : nat) (w : World) (key username : string) (tags : list nat)
  (err connection : Val) (this : Receiver) :
  truthy err = true →
  callbackQueue w !! key = Some (callers tags) →
  let resolve := VFun (KQueued key) in
  call (3 + fuel) (VFun (KConnectionCallback key resolve)) this [err] w
  = (Done tt, told key tags [err] w)
  ∧ call (3 + fuel) (VFun (KReceivedCredentials connection resolve)) this [err] w
    = (Done tt, told key tags [err] w)
  ∧ call (3 + fuel) (VFun (KRegenerateOAuthToken username resolve)) this [err] w
    = (Done tt, told key tags [err] w)
  ∧ cluster (told key tags [err] w) = cluster w
  ∧ connectionCache (told key tags [err] w) = connectionCache w
  ∧ credentialsCache (told key tags [err] w) = credentialsCache w
  ∧ transports (told key tags [err] w) = transports w
  ∧ ∀ nodeId,
      call (3 + fuel) (VFun (KConnectionCallback key resolve)) this [VNull; nodeId] w
      = (Done tt,
         told key tags [VNull; nodeId] (with_cluster (<[key := nodeId]> (cluster w)) w)).
Proof.
  intros Herr Hq resolve.
  assert (Hone : ∀ k, call (3 + fuel) (VFun k) this [err] w
                      = call (2 + fuel) resolve ThisUndefined [err] w →
                      call (3 + fuel) (VFun k) this [err] w
                      = (Done tt, told key tags [err] w)).
  { intros k ->. by apply resolve_callers. }
  split_and!; try reflexivity.
  - apply Hone. change (3 + fuel)%nat with (S (2 + fuel)).
    rewrite call_connectionCallback. unfold arg. cbn [nth]. by rewrite Herr.
  - apply Hone. change (3 + fuel)%nat with (S (2 + fuel)).
    rewrite call_receivedCredentials. unfold arg. cbn [nth]. by rewrite Herr.
  - apply Hone. change (3 + fuel)%nat with (S (2 + fuel)).
    rewrite call_regenerateOAuthToken. unfold arg. cbn [nth]. by rewrite Herr.
  - intros nodeId. change (3 + fuel)%nat with (S (2 + fuel)).
    rewrite call_connectionCallback. unfold arg. cbn [nth truthy].
    unfold bind at 1, cluster_set, modify.
    by rewrite (resolve_callers fuel key _ tags).
Qed.

Lemma failure_is_told_to_every_waiter_and_writes_nothing_witness :
  let key := ok "getSMTPConnection" "u" in
  let err := VErr "connect ECONNREFUSED" in
  call 3 (VFun (KConnectionCallback key (VFun (KQueued key)))) ThisUndefined [err]
       waiting_leader
  = (Done tt, told key [1; 2]%nat [err] waiting_leader).
Proof.
  intros key err.
  refine (proj1 (failure_is_told_to_every_waiter_and_writes_nothing
                   0 waiting_leader key "u" [1; 2]%nat err VUndef ThisUndefined _ _)).
  - reflexivity.
  - vm_compute. reflexivity.
Defined.

(** C7, as stated, fails for the token.  On node [A], which holds no
    generator for [u], a generation is requested and the refresh fails with
    [invalid_grant].  The caller is told the error, yet the directory now
    names [A] for the operation and the cache holds a new entry: both were
    written before the refresh was attempted. *)
Lemma failed_refresh_leaves_pointer_and_entry :
  let key := "generateOAuthCredentials:u" in
  let generate := generateOAuthCredentials (draws PeerSelf) 4 "u" (account "gmail")
                    (VFun (KCaller 1)) in
  let refreshed := VFun (KRegenerateOAuthToken "u" (VFun (KQueued key))) in
  let failed := call 4 refreshed ThisUndefined [VErr "invalid_grant"] in
  let w' := after (generate ;; failed) (node "A") in
  cluster (node "A") !! key = None
  ∧ credentialsCache (node "A") = []
  ∧ outcome (generate ;; failed) (node "A") = Done tt
  ∧ trace w'
    = [ECreateGenerator [("user", VStr "u"); ("refreshToken", VStr "1/refresh")];
       EGenerateToken "u" refreshed;
       ECall 1 [VErr "invalid_grant"]]
  ∧ cluster w' !! key = Some (VStr "A")
  ∧ credentialsCache w'
    = [("u", {| cred_it := newGenerator (draws PeerSelf); cred_key := key |})].
Proof. vm_compute. repeat split. Qed.

(** ** Token freshness *)

Lemma callbackQueue_add_first key callback w :
  callbackQueue w !! key = None →
  callbackQueue_add key callback w
  = (Done (VFun (KQueued key)),
     with_callbackQueue (<[key := [callback]]> (callbackQueue w)) w).
Proof. intros Hq. unfold callbackQueue_add, bind, gets. by rewrite Hq. Qed.

Lemma callbackQueue_add_pending key callback waiting w :
  callbackQueue w !! key = Some waiting →
  callbackQueue_add key callback w
  = (Done (VBool false),
     with_callbackQueue (<[key := waiting ++ [callback]]> (callbackQueue w)) w).
Proof. intros Hq. unfold callbackQueue_add, bind, gets. by rewrite Hq. Qed.

Lemma credentialsCache_get_hit username e w :
  lru_find username (credentialsCache w) = Some e →
  credentialsCache_get username w
  = (Done (Some e),
     with_credentialsCache (lru_touch username (credentialsCache w)) w).
Proof. intros Hf. unfold credentialsCache_get, bind, gets. by rewrite Hf. Qed.

Lemma generateOAuthCredentials_cached env fuel username fields next e w :
  let key := ok "generateOAuthCredentials" username in
  callbackQueue w !! key = None →
  lru_find username (credentialsCache w) = Some e →
  generateOAuthCredentials env fuel username (VObj fields) next w
  = (if truthy (token (cred_it e))
        && match timer (cred_it e) with
           | None => true
           | Some t => Z.eqb t 0 || Z.ltb (now env - 1000 * 60 * 5) t
           end
     then call fuel (VFun (KQueued key)) ThisUndefined
            [VNull; VObj [("user", VStr username); ("xoauth2", token (cred_it e))]]
     else emit (EGenerateToken username
                  (VFun (KRegenerateOAuthToken username (VFun (KQueued key))))))
      (generation_started key username next w).
Proof.
  intros key Hq Hf. unfold generateOAuthCredentials. fold key.
  rewrite (bind_done _ _ _ _ _ (callbackQueue_add_first key next w Hq)).
  cbn [truthy negb]. unfold prop at 1. unfold bind at 1, ret at 1.
  erewrite bind_done; [|by apply credentialsCache_get_hit].
  reflexivity.
Qed.

(** A cached token that carries no [timer] passes the test whatever the
    clock reads: the guard [!xoauth2Instance.timer] takes it for fresh. *)
Lemma token_without_timer_is_reused env fuel username fields tag e tok w :
  callbackQueue w !! ok "generateOAuthCredentials" username = None →
  lru_find username (credentialsCache w) = Some e →
  token (cred_it e) = VStr tok →
  tok ≠ "" →
  timer (cred_it e) = None →
  trace (after (generateOAuthCredentials env (2 + fuel) username (VObj fields)
                  (VFun (KCaller tag))) w)
  = trace w ++ [ECall tag [VNull; VObj [("user", VStr username); ("xoauth2", VStr tok)]]].
Proof.
  intros Hq Hf Htok Hne Htimer. unfold after.
  rewrite (generateOAuthCredentials_cached env (2 + fuel) username fields _ e w Hq Hf).
  rewrite Htok, Htimer. cbn [truthy]. rewrite (proj2 (String.eqb_neq tok "") Hne).
  cbn [negb andb].
  erewrite (resolve_callers fuel _ _ [tag]); [done|].
  cbn. by rewrite lookup_insert_eq.
Qed.



(** ** What a computation adds to the trace *)

Section Adds.
Context (P : Effect → Prop).

Lemma adds_ret {A} (a : A) : adds P (ret a).
Proof. intros w. exists []. by rewrite app_nil_r. Qed.

Lemma adds_throw {A} message : adds P (@throw A message).
Proof. intros w. exists []. by rewrite app_nil_r. Qed.

Lemma adds_gets {A} (f : World → A) : adds P (gets f).
Proof. intros w. exists []. by rewrite app_nil_r. Qed.

Lemma adds_modify f : (∀ w, trace (f w) = trace w) → adds P (modify f).
Proof. intros Hf w. exists []. unfold after, modify. cbn. by rewrite Hf, app_nil_r. Qed.

Lemma adds_emit e : P e → adds P (emit e).
Proof. intros He w. exists [e]. split; [done|]. by apply Forall_singleton. Qed.

Lemma adds_bind {A B} (m : M A) (f : A → M B) :
  adds P m → (∀ a, adds P (f a)) → adds P (bind m f).
Proof.
  intros Hm Hf w. destruct (Hm w) as (new1 & Ht1 & Hn1).
  unfold after, bind in *. destruct (m w) as [[a | e |] w1]; cbn in Ht1.
  - destruct (Hf a w1) as (new2 & Ht2 & Hn2). exists (new1 ++ new2). split.
    + unfold after in Ht2. by rewrite Ht2, Ht1, app_assoc.
    + by apply Forall_app.
  - by exists new1.
  - by exists new1.
Qed.

Lemma adds_forEach {A} (f : A → M unit) l :
  (∀ x, adds P (f x)) → adds P (forEach f l).
Proof.
  intros Hf. induction l as [|x l IH]; cbn [forEach].
  - apply adds_ret.
  - apply adds_bind; [apply Hf | intros _; apply IH].
Qed.

End Adds.

(** One step of the analysis of a computation that answers no caller. *)
Ltac adds_step :=
  lazymatch goal with
  | |- adds _ (bind _ _) => apply adds_bind; [|intros ?]
  | |- adds _ (ret _) => apply adds_ret
  | |- adds _ (throw _) => apply adds_throw
  | |- adds _ (gets _) => apply adds_gets
  | |- adds _ (emit _) => apply adds_emit; intros ? ?; discriminate
  | |- adds _ (modify _) => apply adds_modify; intros ?; reflexivity
  | |- adds _ (forEach _ _) => apply adds_forEach; intros ?
  | |- adds _ (if ?b then _ else _) => destruct b
  | |- adds _ (match ?x with _ => _ end) => destruct x
  end.

Ltac adds_auto := repeat adds_step.

Lemma callbackQueue_add_quiet key callback :
  adds (λ e, ∀ tag args, e ≠ ECall tag args) (callbackQueue_add key callback).
Proof. unfold callbackQueue_add. adds_auto. Qed.

Lemma getSMTPCredentials_quiet env username credentials next :
  adds (λ e, ∀ tag args, e ≠ ECall tag args)
       (getSMTPCredentials env username credentials next).
Proof.
  unfold getSMTPCredentials, prop, credentialsCache_get, cluster_get, peerOnline,
    call_method, is_method, remoteCall, callbackQueue_add.
  adds_auto.
Qed.

(** Establishing a connection answers nobody before the credentials are
    back. *)
Lemma establishSMTPConnection_quiet env username credentials next :
  adds (λ e, ∀ tag args, e ≠ ECall tag args)
       (establishSMTPConnection env username credentials next).
Proof.
  unfold establishSMTPConnection.
  apply adds_bind; [apply callbackQueue_add_quiet | intros callback].
  destruct (negb (truthy callback)); [apply adds_ret|].
  apply adds_bind; [unfold connectionCache_get; adds_auto | intros cached].
  apply adds_bind; [|intros connection; apply getSMTPCredentials_quiet].
  unfold prop, connectionCache_set, connectionCache_dispose, close_transport, cluster_set.
  adds_auto.
Qed.

(** ** The ownership check on the leader *)

Lemma cluster_get_some key v w :
  cluster w !! key = Some v → cluster_get key w = (Done v, w).
Proof. intros Hk. unfold cluster_get, gets. by rewrite Hk. Qed.

Lemma callbackQueue_add_total key callback w :
  ∃ registered w1, callbackQueue_add key callback w = (Done registered, w1)
                   ∧ trace w1 = trace w.
Proof.
  destruct (callbackQueue w !! key) as [waiting|] eqn:Hq.
  - eexists _, _. split; [by apply callbackQueue_add_pending|done].
  - eexists _, _. split; [by apply callbackQueue_add_first|done].
Qed.

(** C5.  On the leader, an acquisition that is not forced and whose pointer
    names [p].  If [p] is live the caller is answered [p] and the world is
    otherwise untouched.  If [p] is another node and not live, the request
    goes on to the assignment exactly as if the pointer were absent: the
    callback is registered and the connection is asked of the drawn peer or
    of the node itself, and no caller is answered meanwhile, neither with
    [p] nor with an error. *)
Theorem leader_answers_live_owner_and_reassigns_dead_owner
  (env : Env) (fuel : nat) (w : World) (username : string) (credentials : Val)
  (tag : nat) (p : string) :
  cluster w !! "leader" = Some (VStr (node_id w)) →
  cluster w !! ok "getSMTPConnection" username = Some (VStr p) →
  p ≠ "" →
  let key := ok "getSMTPConnection" username in
  let next := VFun (KCaller tag) in
  let acquire := getSMTPConnection env (1 + fuel) username credentials (VBool false) next in
  (p ∈ peers_online w →
     acquire w = (Done tt, with_trace (trace w ++ [ECall tag [VNull; VStr p]]) w))
  ∧ (p ∉ peers_online w → p ≠ node_id w →
     ∃ callback w1,
       callbackQueue_add key next w = (Done callback, w1)
       ∧ acquire w
         = match randomPeerOrSelf env with
           | PeerOther id =>
               remoteCall (VStr id) "establishSMTPConnection"
                          [VStr username; credentials; VBool true]
                          (VFun (KConnectionCallback key callback)) w1
           | PeerSelf =>
               establishSMTPConnection env username credentials
                 (VFun (KConnectionCallback key callback)) w1
           end
       ∧ ∃ new, trace (after acquire w) = trace w ++ new ∧ no_answer new).
Proof.
  intros Hleader Hptr Hne key next acquire.
  assert (Hrun : acquire w
    = (let* online := peerOnline (VStr p) in
       if truthy (VStr p) && online then call (1 + fuel) next ThisUndefined [VNull; VStr p]
       else if strict_eq_str (VStr p) (node_id w) then
         establishSMTPConnection env username credentials next
       else
         let* callback := callbackQueue_add key next in
         match randomPeerOrSelf env with
         | PeerOther id =>
             remoteCall (VStr id) "establishSMTPConnection"
                        [VStr username; credentials; VBool true]
                        (VFun (KConnectionCallback key callback))
         | PeerSelf =>
             establishSMTPConnection env username credentials
               (VFun (KConnectionCallback key callback))
         end) w).
  { unfold acquire, getSMTPConnection. fold key.
    rewrite (bind_done _ _ _ _ _ (cluster_get_some "leader" _ w Hleader)).
    cbn [truthy]. unfold gets at 1. unfold bind at 1.
    cbn [strict_eq_str]. rewrite String.eqb_refl. cbn [negb].
    by rewrite (bind_done _ _ _ _ _ (cluster_get_some key _ w Hptr)). }
  assert (Htruthy : truthy (VStr p) = true).
  { cbn. apply negb_true_iff. by apply String.eqb_neq. }
  rewrite Htruthy in Hrun. unfold peerOnline, gets in Hrun. unfold bind at 1 in Hrun.
  split.
  - intros Hlive. rewrite bool_decide_eq_true_2 in Hrun by done.
    rewrite Hrun. reflexivity.
  - intros Hdead Hself. rewrite bool_decide_eq_false_2 in Hrun by done.
    cbn [andb strict_eq_str] in Hrun.
    rewrite (proj2 (String.eqb_neq p (node_id w)) Hself) in Hrun.
    destruct (callbackQueue_add_total key next w) as (callback & w1 & Hadd & Htrace).
    rewrite (bind_done _ _ _ _ _ Hadd) in Hrun.
    exists callback, w1.
    split_and!; [done | by rewrite Hrun; destruct (randomPeerOrSelf env) |].
    unfold after. rewrite Hrun. rewrite <- Htrace.
    destruct (randomPeerOrSelf env) as [|id].
    + apply establishSMTPConnection_quiet.
    + eexists [_]. split; [reflexivity|].
      apply Forall_singleton. intros ? ?. discriminate.
Qed.

Lemma leader_answers_live_owner_and_reassigns_dead_owner_witness :
  let acquire := getSMTPConnection (draws (PeerOther "B")) 1 "u" (account "gmail")
                   (VBool false) (VFun (KCaller 1)) in
  let key := ok "getSMTPConnection" "u" in
  acquire (connection_owned_by "A")
  = (Done tt, with_trace [ECall 1 [VNull; VStr "A"]] (connection_owned_by "A"))
  ∧ ∃ callback w1,
      callbackQueue_add key (VFun (KCaller 1)) (connection_owned_by "gone")
      = (Done callback, w1)
      ∧ acquire (connection_owned_by "gone")
        = remoteCall (VStr "B") "establishSMTPConnection"
            [VStr "u"; account "gmail"; VBool true]
            (VFun (KConnectionCallback key callback)) w1
      ∧ ∃ new, trace (after acquire (connection_owned_by "gone")) = new ∧ no_answer new.
Proof.
  intros acquire key. split.
  - refine (proj1 (leader_answers_live_owner_and_reassigns_dead_owner
             (draws (PeerOther "B")) 0 (connection_owned_by "A") "u" (account "gmail")
             1 "A" _ _ _) _).
    + vm_compute. reflexivity.
    + vm_compute. reflexivity.
    + discriminate.
    + change ("A" ∈ ["L"; "A"; "B"]). compute_done.
  - refine (proj2 (leader_answers_live_owner_and_reassigns_dead_owner
             (draws (PeerOther "B")) 0 (connection_owned_by "gone") "u" (account "gmail")
             1 "gone" _ _ _) _ _).
    + vm_compute. reflexivity.
    + vm_compute. reflexivity.
    + discriminate.
    + change ("gone" ∉ ["L"; "A"; "B"]). compute_done.
    + discriminate.
Defined.
